(** * dj_twilio_sms.decorators: the [twilio_view] guard

    A shallow embedding of [src/dj_twilio_sms/decorators.py].  The module has
    one function, the decorator [twilio_view], which wraps a Django view so
    that
    - only POST requests are served (line 54),
    - the request's Twilio signature is checked unless the settings switch the
      check off (lines 58-81),
    - the view is run (line 84), and
    - a text or TwiML result is wrapped into an XML response (lines 91-96).

    Python objects that the decorator touches are records; [request.META] is a
    finite map from strings to strings; an exception raised inside the [try]
    block is a value of [exn] on the left of a sum; the observable effects
    (log records, calls of the wrapped view) are collected in a trace.

    Two collaborators are not part of the repository and stay parameters of
    the development: the vendor SDK's [RequestValidator.validate] (an
    HMAC-SHA1 comparison) and the textual form of a [TwiML] object.  Django's
    [request.build_absolute_uri()] is known to the decorator by its outcome
    only, a URL or an exception, and the request carries that outcome. *)

From stdpp Require Import base option list strings gmap.

Open Scope string_scope.

(** ** Python values used by the decorator *)

Module Py.

(** The exceptions the decorator can meet.  [AttributeError] carries its
    message, [KeyError] the key that was looked up, and [Exception] stands for
    anything else a view may raise (class name and message). *)
Inductive exn : Type :=
| AttributeError (msg : string)
| KeyError (key : string)
| Exception (cls msg : string).

(** [repr] of a string made of letters, digits and underscores, which is what
    every key looked up by the decorator is: the text between single
    quotes. *)
Definition repr (s : string) : string := "'" +:+ s +:+ "'".

(** [str(e)]: a [KeyError] prints the [repr] of its key, the others their
    message. *)
Definition str (e : exn) : string :=
  match e with
  | AttributeError msg => msg
  | KeyError key => repr key
  | Exception _ msg => msg
  end.

(** [except (AttributeError, KeyError)]: the exceptions that clause catches. *)
Definition caught (e : exn) : bool :=
  match e with
  | AttributeError _ | KeyError _ => true
  | Exception _ _ => false
  end.

(** A call inside the [try] that returned, or raised what the clause
    catches. *)
Definition returns_or_caught {A : Type} (outcome : exn + A) : bool :=
  match outcome with
  | inl e => caught e
  | inr _ => true
  end.

(** Iterating over a [str] yields its characters as one-character strings. *)
Fixpoint iter (s : string) : list string :=
  match s with
  | EmptyString => []
  | String c rest => String c EmptyString :: iter rest
  end.

(** [sep.join(parts)]. *)
Fixpoint join (sep : string) (parts : list string) : string :=
  match parts with
  | [] => ""
  | [p] => p
  | p :: rest => p +:+ sep +:+ join sep rest
  end.

(** [d[k]] on a dict: the value, or [KeyError(k)]. *)
Definition getitem (d : gmap string string) (k : string) : exn + string :=
  match d !! k with
  | Some v => inr v
  | None => inl (KeyError k)
  end.

(** [k in d]. *)
Definition contains (d : gmap string string) (k : string) : bool :=
  match d !! k with
  | Some _ => true
  | None => false
  end.

(** [getattr(obj, name, default)] where the attribute may be unset. *)
Definition getattr {A : Type} (attr : option A) (default : A) : A :=
  match attr with
  | Some v => v
  | None => default
  end.

(** The outcome of a call: a returned value or a raised exception. *)
Inductive result (A : Type) : Type :=
| Return (v : A)
| Raise (e : exn).
Arguments Return {A} v.
Arguments Raise {A} e.

End Py.

(** ** The parts of Django the decorator uses *)

Module Django.

(** [django.http.HttpResponse]: status code, headers in the order they were
    set, and body. *)
Record HttpResponse : Type := mkResponse {
  status_code : Z;
  headers : list (string * string);
  content : string
}.

(** [response[name]]. *)
Fixpoint header (name : string) (hs : list (string * string)) : option string :=
  match hs with
  | [] => None
  | (k, v) :: rest => if String.eqb k name then Some v else header name rest
  end.

(** [settings.DEFAULT_CONTENT_TYPE] and [settings.DEFAULT_CHARSET] as Django
    ships them, which give the Content-Type of a response built without
    one. *)
Definition DEFAULT_CONTENT_TYPE : string := "text/html".
Definition DEFAULT_CHARSET : string := "utf-8".

Definition default_content_type : string :=
  DEFAULT_CONTENT_TYPE +:+ "; charset=" +:+ DEFAULT_CHARSET.

(** [HttpResponse(content, mimetype=m)]: the base class has status 200, and a
    non-empty [mimetype] is used as the Content-Type as it is. *)
Definition HttpResponse_ (body : string) (mimetype : string) : HttpResponse :=
  {| status_code := 200;
     headers := [("Content-Type",
                  if String.eqb mimetype "" then default_content_type
                  else mimetype)];
     content := body |}.

(** [HttpResponseForbidden(content)]: status 403, default Content-Type. *)
Definition HttpResponseForbidden (body : string) : HttpResponse :=
  {| status_code := 403;
     headers := [("Content-Type", default_content_type)];
     content := body |}.

(** [HttpResponseNotAllowed(permitted_methods)]: status 405, empty body, and
    an Allow header that joins whatever iterating over [permitted_methods]
    yields with [", "]. *)
Definition HttpResponseNotAllowed (permitted_methods : list string) : HttpResponse :=
  {| status_code := 405;
     headers := [("Content-Type", default_content_type);
                 ("Allow", Py.join ", " permitted_methods)];
     content := "" |}.

(** [request.POST]: an ordered mapping from a field name to its values. *)
Definition QueryDict : Type := list (string * list string).

(** [django.http.HttpRequest], with what the decorator reads of it.
    [build_absolute_uri] is the outcome of the call
    [request.build_absolute_uri()]: the URL as the server itself sees it, or
    the exception the call raises ([KeyError] when [META] has no host to build
    the URL from, [DisallowedHost] when the host is not one the server
    accepts).  Django computes it from the request and its own configuration;
    the decorator only sees the outcome. *)
Record HttpRequest : Type := mkRequest {
  method : string;
  build_absolute_uri : Py.exn + string;
  META : gmap string string;
  POST : QueryDict
}.

(** [django.conf.settings], with the three attributes the decorator reads;
    [None] is an attribute that is not set.  A flag is recorded by its truth
    value. *)
Record Settings : Type := mkSettings {
  TWILIO_SKIP_SIGNATURE_VALIDATION : option bool;
  SMS_DEBUG : option bool;
  TWILIO_AUTH_TOKEN : option string
}.

(** [settings.TWILIO_AUTH_TOKEN]: reading an attribute that is not set raises
    [AttributeError] with the settings object's message. *)
Definition get_TWILIO_AUTH_TOKEN (settings : Settings) : Py.exn + string :=
  match TWILIO_AUTH_TOKEN settings with
  | Some tok => inr tok
  | None =>
      inl (Py.AttributeError
             "'Settings' object has no attribute 'TWILIO_AUTH_TOKEN'")
  end.

End Django.

(** ** Logging and the trace of observable effects *)

Module Logging.

Inductive level : Type := DEBUG | INFO | WARNING | ERROR | CRITICAL.

(** An argument of a log call, kept unformatted as the [logging] module
    does. *)
Inductive logarg : Type :=
| AText (s : string)
| APost (q : Django.QueryDict).

(** A log record of the logger ["dj-twilio-sms.decorators"]: level, message
    template, arguments, the exception attached by [logger.exception], and the
    request passed in [extra]. *)
Record LogRecord : Type := mkLogRecord {
  levelno : level;
  msg : string;
  args : list logarg;
  exc_info : option Py.exn;
  extra_request : Django.HttpRequest
}.

(** [logger.error(msg, *args, extra={"request": request})]. *)
Definition error (m : string) (a : list logarg) (request : Django.HttpRequest) : LogRecord :=
  {| levelno := ERROR; msg := m; args := a; exc_info := None;
     extra_request := request |}.

(** [logger.exception(msg, extra={"request": request})] inside a handler for
    [e]: an ERROR record that carries the exception. *)
Definition exception (m : string) (e : Py.exn) (request : Django.HttpRequest) : LogRecord :=
  {| levelno := ERROR; msg := m; args := []; exc_info := Some e;
     extra_request := request |}.

End Logging.

Import Py Django Logging.

(** The positional and keyword arguments ([*args], [**kwargs]) that the URL
    dispatcher passes to a view after the request. *)
Definition Args : Type := (list string * list (string * string))%type.

(** What the decorator does that can be observed from outside, in order. *)
Inductive event : Type :=
| Log (r : LogRecord)
| Call (request : HttpRequest) (args : Args).

(** The calls of the wrapped view in a trace, and its log records. *)
Fixpoint calls (tr : list event) : list (HttpRequest * Args) :=
  match tr with
  | [] => []
  | Call request a :: rest => (request, a) :: calls rest
  | Log _ :: rest => calls rest
  end.

Fixpoint records (tr : list event) : list LogRecord :=
  match tr with
  | [] => []
  | Log r :: rest => r :: records rest
  | Call _ _ :: rest => records rest
  end.

(** Exceptions short-circuit the statements of a [try] body. *)
#[export] Instance exn_ret : MRet (sum exn) := fun A v => inr v.
#[export] Instance exn_bind : MBind (sum exn) := fun A B k m =>
  match m with
  | inl e => inl e
  | inr v => k v
  end.

(** [twilio.request_validator.RequestValidator(token)]. *)
Record RequestValidator : Type := mkValidator { token : string }.

(** ** The decorator *)

Section Decorator.

(** The vendor SDK: the type of TwiML objects with their textual form
    ([force_text(response)]), and [validator.validate(url, post, signature)],
    which recomputes the signature of [url] and [post] under the validator's
    token and compares it with [signature]. *)
Context {TwiML : Type}.
Variable force_text : TwiML -> string.
Variable validate : RequestValidator -> string -> QueryDict -> string -> bool.

(** What a view may return: text, a TwiML object, a response, or any other
    object (named by its [repr]). *)
Inductive value : Type :=
| VText (s : string)
| VTwiML (t : TwiML)
| VResponse (r : HttpResponse)
| VObject (o : string).

(** A view as the decorator receives it, and a decorated view, whose call
    also yields the trace of what the decorator did. *)
Definition view : Type := HttpRequest -> Args -> result value.
Definition decorated : Type := HttpRequest -> Args -> list event * result value.

(** Lines 62-68: the URL that is validated.  [build_absolute_uri()] is
    called first and may raise.  Its URL is kept unless [META] has the
    forwarded-server key, in which case the URL is put together from three
    [META] entries; the arguments of [format] are evaluated from left to
    right, so the first missing one raises. *)
Definition validation_url (request : HttpRequest) : exn + string :=
  url ← build_absolute_uri request;
  if contains (META request) "HTTP_X_FORWARDED_SERVER" then
    proto ← getitem (META request) "HTTP_X_FORWARDED_PROTO";
    server ← getitem (META request) "HTTP_X_FORWARDED_SERVER";
    uri ← getitem (META request) "REQUEST_URI";
    mret (proto +:+ "://" +:+ server +:+ uri)
  else mret url.

(** Lines 61-69, the body of the [try]: the validator, the URL to validate
    and the signature, or the first exception raised on the way. *)
Definition gather (settings : Settings) (request : HttpRequest)
  : exn + (RequestValidator * string * string) :=
  tok ← get_TWILIO_AUTH_TOKEN settings;
  let validator := mkValidator tok in
  url ← validation_url request;
  signature ← getitem (META request) "HTTP_X_TWILIO_SIGNATURE";
  mret (validator, url, signature).

(** Lines 91-96: text and TwiML become an XML response, anything else is
    returned as it is. *)
Definition coerce (response : value) : value :=
  match response with
  | VText s => VResponse (HttpResponse_ s "application/xml")
  | VTwiML t => VResponse (HttpResponse_ (force_text t) "application/xml")
  | _ => response
  end.

(** Lines 84-96: run the wrapped view; an exception it raises is not
    caught. *)
Definition run (f : view) (request : HttpRequest) (args : Args)
  : list event * result value :=
  ([Call request args],
   match f request args with
   | Return response => Return (coerce response)
   | Raise e => Raise e
   end).

(** Lines 48-96, the function [decorator] that [twilio_view] builds around
    [f]. *)
Definition decorator (settings : Settings) (f : view) : decorated :=
  fun request args =>
  if negb (String.eqb (method request) "POST") then
    ([Log (error "Twilio: Expected POST request" [] request)],
     Return (VResponse (HttpResponseNotAllowed (iter (method request)))))
  else if negb (getattr (TWILIO_SKIP_SIGNATURE_VALIDATION settings) false) then
    match gather settings request with
    | inl (Exception _ _ as e) => ([], Raise e)
    | inl e =>
        ([Log (exception "Twilio: Missing META param" e request)],
         Return (VResponse
                   (HttpResponseForbidden ("Missing META param: " +:+ str e))))
    | inr (validator, url, signature) =>
        if negb (validate validator url (POST request) signature)
           && negb (getattr (SMS_DEBUG settings) false)
        then
          ([Log (error "Twilio: Invalid url signature %s - %s - %s"
                   [AText url; APost (POST request); AText signature]
                   request)],
           Return (VResponse (HttpResponseForbidden "Invalid signature")))
        else run f request args
    end
  else run f request args.

(** [twilio_view(f)]: [decorator], which [csrf_exempt] marks and [wraps]
    renames without changing what a call does. *)
Definition twilio_view (settings : Settings) (f : view) : decorated :=
  decorator settings f.

End Decorator.

Arguments VText {TwiML} s.
Arguments VResponse {TwiML} r.
Arguments VObject {TwiML} o.

(** ** Sample data

    A stand-in for the vendor's validator with the same interface (the
    "signature" of a request is its token, URL and fields written one after
    the other), a view that answers with TwiML text, and a few requests and
    settings. *)

Module Samples.

Definition sign (tok url : string) (post : QueryDict) : string :=
  tok +:+ "|" +:+ url +:+ "|" +:+
  String.concat "" (map (fun kv => kv.1 +:+ String.concat "" kv.2) post).

Definition validate (v : RequestValidator) (url : string) (post : QueryDict)
    (signature : string) : bool :=
  String.eqb signature (sign (token v) url post).

Definition force_text (t : string) : string := t.

Definition hello : string := "<Response><Sms>hi</Sms></Response>".

Definition text_view : @view string := fun _ _ => Return (VText hello).

Definition teapot : HttpResponse :=
  {| status_code := 418;
     headers := [("Content-Type", "text/plain"); ("X-Kind", "teapot")];
     content := "short and stout" |}.

Definition response_view : @view string := fun _ _ => Return (VResponse teapot).

Definition no_args : Args := ([], []).

Definition fields : QueryDict := [("Body", ["hi"]); ("From", ["+15550100"])].

Definition local_url : string := "http://127.0.0.1:8000/sms/".
Definition public_url : string := "https://example.com/sms/".

Definition production : Settings :=
  {| TWILIO_SKIP_SIGNATURE_VALIDATION := None;
     SMS_DEBUG := None;
     TWILIO_AUTH_TOKEN := Some "secret" |}.

Definition debugging : Settings :=
  {| TWILIO_SKIP_SIGNATURE_VALIDATION := Some false;
     SMS_DEBUG := Some true;
     TWILIO_AUTH_TOKEN := Some "secret" |}.

Definition skipping : Settings :=
  {| TWILIO_SKIP_SIGNATURE_VALIDATION := Some true;
     SMS_DEBUG := None;
     TWILIO_AUTH_TOKEN := None |}.

Definition no_token : Settings :=
  {| TWILIO_SKIP_SIGNATURE_VALIDATION := None;
     SMS_DEBUG := None;
     TWILIO_AUTH_TOKEN := None |}.

Definition get_request : HttpRequest :=
  {| method := "GET"; build_absolute_uri := inr local_url; META := ∅; POST := [] |}.

(** A POST with no signature header at all. *)
Definition unsigned : HttpRequest :=
  {| method := "POST"; build_absolute_uri := inr local_url; META := ∅; POST := fields |}.

(** A POST signed for the local URL. *)
Definition signed : HttpRequest :=
  {| method := "POST"; build_absolute_uri := inr local_url;
     META := {[ "HTTP_X_TWILIO_SIGNATURE" := sign "secret" local_url fields ]};
     POST := fields |}.

(** A POST whose signature is not the one of its URL and fields. *)
Definition forged : HttpRequest :=
  {| method := "POST"; build_absolute_uri := inr local_url;
     META := {[ "HTTP_X_TWILIO_SIGNATURE" := "bm90IGEgc2lnbmF0dXJl" ]};
     POST := fields |}.

(** A POST that came through a proxy: the server sees [local_url], the
    provider signed [public_url]. *)
Definition proxied : HttpRequest :=
  {| method := "POST"; build_absolute_uri := inr local_url;
     META := <[ "HTTP_X_TWILIO_SIGNATURE" := sign "secret" public_url fields ]>
             (<[ "HTTP_X_FORWARDED_SERVER" := "example.com" ]>
             (<[ "HTTP_X_FORWARDED_PROTO" := "https" ]>
             {[ "REQUEST_URI" := "/sms/" ]}));
     POST := fields |}.

(** The same without the forwarded protocol, and unsigned. *)
Definition half_proxied : HttpRequest :=
  {| method := "POST"; build_absolute_uri := inr local_url;
     META := <[ "HTTP_X_FORWARDED_SERVER" := "example.com" ]>
             {[ "REQUEST_URI" := "/sms/" ]};
     POST := fields |}.

(** What [build_absolute_uri()] raises for a Host header that the server does
    not accept, and two requests that carry such a header. *)
Definition disallowed : exn :=
  Exception "DisallowedHost" "Invalid HTTP_HOST header: 'evil.test'.".

Definition unsigned_disallowed : HttpRequest :=
  {| method := "POST"; build_absolute_uri := inl disallowed;
     META := {[ "HTTP_HOST" := "evil.test" ]}; POST := fields |}.

Definition half_proxied_disallowed : HttpRequest :=
  {| method := "POST"; build_absolute_uri := inl disallowed;
     META := <[ "HTTP_HOST" := "evil.test" ]>
             (<[ "HTTP_X_FORWARDED_SERVER" := "example.com" ]>
             {[ "REQUEST_URI" := "/sms/" ]});
     POST := fields |}.

(** The decorator over the stand-in validator. *)
Definition guard (settings : Settings) (f : view) : decorated :=
  twilio_view force_text validate settings f.

End Samples.

(** ** Properties of the decorator *)

Section Properties.

Context {TwiML : Type}.
Variable force_text : TwiML -> string.
Variable validate : RequestValidator -> string -> QueryDict -> string -> bool.

Abbreviation guard := (twilio_view force_text validate).
Abbreviation served f request args :=
  (match f request args with
   | Return response => Return (coerce force_text response)
   | Raise e => Raise e
   end).

(** *** The [try] body *)

Lemma gather_no_token settings request :
  TWILIO_AUTH_TOKEN settings = None ->
  gather settings request =
  inl (AttributeError "'Settings' object has no attribute 'TWILIO_AUTH_TOKEN'").
Proof.
  intros Htok. unfold gather, get_TWILIO_AUTH_TOKEN. now rewrite Htok.
Qed.

Lemma gather_token settings request tok :
  TWILIO_AUTH_TOKEN settings = Some tok ->
  gather settings request =
  (url ← validation_url request;
   signature ← getitem (META request) "HTTP_X_TWILIO_SIGNATURE";
   mret (mkValidator tok, url, signature)).
Proof.
  intros Htok. unfold gather, get_TWILIO_AUTH_TOKEN. now rewrite Htok.
Qed.

Lemma gather_ok settings request tok url signature :
  TWILIO_AUTH_TOKEN settings = Some tok ->
  validation_url request = inr url ->
  META request !! "HTTP_X_TWILIO_SIGNATURE" = Some signature ->
  gather settings request = inr (mkValidator tok, url, signature).
Proof.
  intros Htok Hurl Hsig. rewrite (gather_token _ _ _ Htok), Hurl.
  unfold getitem. now rewrite Hsig.
Qed.

Lemma validation_url_local request local :
  build_absolute_uri request = inr local ->
  META request !! "HTTP_X_FORWARDED_SERVER" = None ->
  validation_url request = inr local.
Proof.
  intros Hlocal Hsrv. unfold validation_url, contains.
  now rewrite Hlocal, Hsrv.
Qed.

Lemma validation_url_forwarded request local host :
  build_absolute_uri request = inr local ->
  META request !! "HTTP_X_FORWARDED_SERVER" = Some host ->
  validation_url request =
  match META request !! "HTTP_X_FORWARDED_PROTO", META request !! "REQUEST_URI" with
  | Some proto, Some uri => inr (proto +:+ "://" +:+ host +:+ uri)
  | None, _ => inl (KeyError "HTTP_X_FORWARDED_PROTO")
  | Some _, None => inl (KeyError "REQUEST_URI")
  end.
Proof.
  intros Hlocal Hsrv. unfold validation_url, contains, getitem.
  rewrite Hlocal, Hsrv. simpl.
  destruct (META request !! "HTTP_X_FORWARDED_PROTO"); [|reflexivity].
  now destruct (META request !! "REQUEST_URI").
Qed.

(** What the [try] body can raise: the missing token attribute, whatever
    [build_absolute_uri()] raised, or a key that [META] does not have. *)
Inductive missing (settings : Settings) (request : HttpRequest) : exn -> Prop :=
| missing_token :
    TWILIO_AUTH_TOKEN settings = None ->
    missing settings request
      (AttributeError "'Settings' object has no attribute 'TWILIO_AUTH_TOKEN'")
| missing_uri e :
    build_absolute_uri request = inl e ->
    missing settings request e
| missing_key k :
    META request !! k = None ->
    missing settings request (KeyError k).

Lemma validation_url_raises request e :
  validation_url request = inl e ->
  build_absolute_uri request = inl e \/
  exists k, e = KeyError k /\ META request !! k = None.
Proof.
  unfold validation_url, contains, getitem.
  destruct (build_absolute_uri request) as [e'|local]; simpl;
    [intros [= <-]; now left|].
  destruct (META request !! "HTTP_X_FORWARDED_SERVER") as [host|]; [|discriminate].
  destruct (META request !! "HTTP_X_FORWARDED_PROTO") as [proto|] eqn:Hproto.
  - destruct (META request !! "REQUEST_URI") as [uri|] eqn:Huri; [discriminate|].
    intros [= <-]. eauto.
  - intros [= <-]. eauto.
Qed.

Lemma gather_raises settings request e :
  gather settings request = inl e -> missing settings request e.
Proof.
  destruct (TWILIO_AUTH_TOKEN settings) as [tok|] eqn:Htok.
  - rewrite (gather_token _ _ _ Htok).
    destruct (validation_url request) as [e'|url] eqn:Hurl.
    + intros [= <-].
      destruct (validation_url_raises _ _ Hurl) as [Hraised|(k & -> & Hk)];
        [now apply missing_uri|now apply missing_key].
    + unfold getitem.
      destruct (META request !! "HTTP_X_TWILIO_SIGNATURE") eqn:Hsig; [discriminate|].
      intros [= <-]. now apply missing_key.
  - rewrite (gather_no_token _ _ Htok). intros [= <-]. now apply missing_token.
Qed.

Lemma gather_unsigned settings request :
  META request !! "HTTP_X_TWILIO_SIGNATURE" = None ->
  exists e, gather settings request = inl e.
Proof.
  intros Hsig. destruct (TWILIO_AUTH_TOKEN settings) as [tok|] eqn:Htok.
  - rewrite (gather_token _ _ _ Htok).
    destruct (validation_url request) as [e|url]; [now exists e|].
    unfold getitem. rewrite Hsig. eauto.
  - rewrite (gather_no_token _ _ Htok). eauto.
Qed.

(** *** The branches of [decorator] *)

Lemma POST_eqb request :
  method request = "POST" -> String.eqb (method request) "POST" = true.
Proof. intros ->. reflexivity. Qed.

Lemma decorator_not_POST settings f request args :
  method request <> "POST" ->
  guard settings f request args =
  ([Log (error "Twilio: Expected POST request" [] request)],
   Return (VResponse (HttpResponseNotAllowed (iter (method request))))).
Proof.
  intros Hm. unfold twilio_view, decorator.
  destruct (String.eqb_spec (method request) "POST"); [contradiction|reflexivity].
Qed.

Lemma decorator_skip settings f request args :
  method request = "POST" ->
  getattr (TWILIO_SKIP_SIGNATURE_VALIDATION settings) false = true ->
  guard settings f request args = run force_text f request args.
Proof.
  intros Hm Hskip. unfold twilio_view, decorator.
  now rewrite (POST_eqb _ Hm), Hskip.
Qed.

Lemma decorator_missing settings f request args e :
  method request = "POST" ->
  getattr (TWILIO_SKIP_SIGNATURE_VALIDATION settings) false = false ->
  gather settings request = inl e ->
  caught e = true ->
  guard settings f request args =
  ([Log (exception "Twilio: Missing META param" e request)],
   Return (VResponse (HttpResponseForbidden ("Missing META param: " +:+ str e)))).
Proof.
  intros Hm Hskip Hg Hcaught. unfold twilio_view, decorator.
  rewrite (POST_eqb _ Hm), Hskip, Hg. simpl.
  destruct e; [reflexivity|reflexivity|discriminate Hcaught].
Qed.

(** An exception of the [try] body that the [except] clause does not catch
    leaves the decorated view as it is: nothing is logged, the wrapped view is
    not called. *)
Lemma decorator_uncaught settings f request args e :
  method request = "POST" ->
  getattr (TWILIO_SKIP_SIGNATURE_VALIDATION settings) false = false ->
  gather settings request = inl e ->
  caught e = false ->
  guard settings f request args = ([], Raise e).
Proof.
  intros Hm Hskip Hg Hcaught. unfold twilio_view, decorator.
  rewrite (POST_eqb _ Hm), Hskip, Hg. simpl.
  destruct e; [discriminate Hcaught|discriminate Hcaught|reflexivity].
Qed.

Lemma decorator_checked settings f request args validator url signature :
  method request = "POST" ->
  getattr (TWILIO_SKIP_SIGNATURE_VALIDATION settings) false = false ->
  gather settings request = inr (validator, url, signature) ->
  guard settings f request args =
  if negb (validate validator url (POST request) signature)
     && negb (getattr (SMS_DEBUG settings) false)
  then
    ([Log (error "Twilio: Invalid url signature %s - %s - %s"
             [AText url; APost (POST request); AText signature] request)],
     Return (VResponse (HttpResponseForbidden "Invalid signature")))
  else run force_text f request args.
Proof.
  intros Hm Hskip Hg. unfold twilio_view, decorator.
  now rewrite (POST_eqb _ Hm), Hskip, Hg.
Qed.

(** Either the wrapped view is not called at all, or the call of the
    decorated view is exactly one call of the wrapped view. *)
Lemma decorator_rejects_or_runs settings f request args :
  calls (fst (guard settings f request args)) = [] \/
  guard settings f request args = run force_text f request args.
Proof.
  unfold twilio_view, decorator.
  destruct (negb (String.eqb (method request) "POST")); [now left|].
  destruct (negb (getattr (TWILIO_SKIP_SIGNATURE_VALIDATION settings) false));
    [|now right].
  destruct (gather settings request) as [[]|[[validator url] signature]];
    try (now left).
  destruct (negb (validate validator url (POST request) signature)
            && negb (getattr (SMS_DEBUG settings) false)); [now left|now right].
Qed.

(** *** Rejections *)

(** C1.  A POST request that carries a signature header whose value does not
    validate against the validated URL and the POST fields under the
    configured token, with validation not skipped and the debug flag off, is
    answered with 403 ("Invalid signature") and the wrapped view is not
    called. *)
Theorem invalid_signature_is_forbidden settings f request args tok url signature :
  method request = "POST" ->
  getattr (TWILIO_SKIP_SIGNATURE_VALIDATION settings) false = false ->
  getattr (SMS_DEBUG settings) false = false ->
  TWILIO_AUTH_TOKEN settings = Some tok ->
  validation_url request = inr url ->
  META request !! "HTTP_X_TWILIO_SIGNATURE" = Some signature ->
  validate (mkValidator tok) url (POST request) signature = false ->
  exists r,
    snd (guard settings f request args) = Return (VResponse r) /\
    status_code r = 403%Z /\
    content r = "Invalid signature" /\
    calls (fst (guard settings f request args)) = [].
Proof.
  intros Hm Hskip Hdebug Htok Hurl Hsig Hbad.
  rewrite (decorator_checked _ _ _ _ _ _ _ Hm Hskip (gather_ok _ _ _ _ _ Htok Hurl Hsig)).
  rewrite Hbad, Hdebug. simpl. eauto.
Qed.

(** C2, as amended.  A POST request without the signature header, with
    validation not skipped and [build_absolute_uri()] raising nothing that the
    [except] clause lets through, is answered with 403 and the wrapped view is
    not called.  The body is ["Missing META param: "] followed by the text of
    the first failure of the [try] body, in its order: the token attribute
    that is not set; else what [build_absolute_uri()] raised; else, when
    [META] has the forwarded server, the forwarded protocol and then the
    request URI if [META] lacks it; else the signature header. *)
Theorem unsigned_is_forbidden settings f request args :
  method request = "POST" ->
  getattr (TWILIO_SKIP_SIGNATURE_VALIDATION settings) false = false ->
  META request !! "HTTP_X_TWILIO_SIGNATURE" = None ->
  returns_or_caught (build_absolute_uri request) = true ->
  let e :=
    match TWILIO_AUTH_TOKEN settings with
    | None =>
        AttributeError "'Settings' object has no attribute 'TWILIO_AUTH_TOKEN'"
    | Some _ =>
        match build_absolute_uri request with
        | inl raised => raised
        | inr _ =>
            match META request !! "HTTP_X_FORWARDED_SERVER",
                  META request !! "HTTP_X_FORWARDED_PROTO",
                  META request !! "REQUEST_URI" with
            | Some _, None, _ => KeyError "HTTP_X_FORWARDED_PROTO"
            | Some _, Some _, None => KeyError "REQUEST_URI"
            | _, _, _ => KeyError "HTTP_X_TWILIO_SIGNATURE"
            end
        end
    end in
  exists r,
    snd (guard settings f request args) = Return (VResponse r) /\
    status_code r = 403%Z /\
    content r = "Missing META param: " +:+ str e /\
    records (fst (guard settings f request args)) =
      [exception "Twilio: Missing META param" e request] /\
    calls (fst (guard settings f request args)) = [].
Proof.
  intros Hm Hskip Hsig Hbuild e.
  assert (gather settings request = inl e /\ caught e = true) as [Hg Hcaught].
  { subst e. unfold gather, get_TWILIO_AUTH_TOKEN, validation_url, contains, getitem.
    destruct (TWILIO_AUTH_TOKEN settings) as [tok|]; [|now split].
    destruct (build_absolute_uri request) as [raised|local]; [now split|].
    simpl. rewrite Hsig.
    destruct (META request !! "HTTP_X_FORWARDED_SERVER") as [host|]; [|now split].
    destruct (META request !! "HTTP_X_FORWARDED_PROTO") as [proto|]; [|now split].
    destruct (META request !! "REQUEST_URI") as [uri|]; now split. }
  rewrite (decorator_missing _ _ _ _ _ Hm Hskip Hg Hcaught). simpl.
  eexists. repeat split.
Qed.

(** C10.  With validation not skipped and no token attribute in the settings,
    a POST request is answered with 403, the body names the attribute, the
    wrapped view is not called, and the decorated view returns (it does not
    raise). *)
Theorem missing_token_is_forbidden settings f request args :
  method request = "POST" ->
  getattr (TWILIO_SKIP_SIGNATURE_VALIDATION settings) false = false ->
  TWILIO_AUTH_TOKEN settings = None ->
  exists r,
    snd (guard settings f request args) = Return (VResponse r) /\
    status_code r = 403%Z /\
    content r =
      "Missing META param: 'Settings' object has no attribute " +:+
      repr "TWILIO_AUTH_TOKEN" /\
    calls (fst (guard settings f request args)) = [].
Proof.
  intros Hm Hskip Htok.
  rewrite (decorator_missing _ _ _ _ _ Hm Hskip (gather_no_token _ request Htok)
             eq_refl).
  simpl. eauto.
Qed.

(** A request whose method is not POST is answered with 405 and the wrapped
    view is not called.  The Allow header is the request's own method, letter
    by letter. *)
Lemma not_POST_is_not_allowed settings f request args :
  method request <> "POST" ->
  exists r,
    snd (guard settings f request args) = Return (VResponse r) /\
    status_code r = 405%Z /\
    header "Allow" (headers r) = Some (join ", " (iter (method request))) /\
    calls (fst (guard settings f request args)) = [].
Proof.
  intros Hm. rewrite (decorator_not_POST _ _ _ _ Hm). simpl. eauto.
Qed.

(** Joining the letters of a method never spells ["POST"]: no rejected request
    is told that POST is allowed. *)
Lemma join_iter_not_POST m :
  m <> "POST" -> join ", " (iter m) <> "POST".
Proof.
  intros Hm. destruct m as [|a [|b m]]; simpl; [discriminate|discriminate|].
  destruct m; discriminate.
Qed.

(** *** Requests that reach the wrapped view *)

(** C3, as amended.  With validation not skipped and the debug flag on, a POST
    request whose signature does not validate is served like a valid one:
    the wrapped view is called once with the request and arguments it was
    given, and nothing is logged about the mismatch. *)
Theorem debug_serves_invalid_signature settings f request args tok url signature :
  method request = "POST" ->
  getattr (TWILIO_SKIP_SIGNATURE_VALIDATION settings) false = false ->
  getattr (SMS_DEBUG settings) false = true ->
  TWILIO_AUTH_TOKEN settings = Some tok ->
  validation_url request = inr url ->
  META request !! "HTTP_X_TWILIO_SIGNATURE" = Some signature ->
  validate (mkValidator tok) url (POST request) signature = false ->
  fst (guard settings f request args) = [Call request args] /\
  records (fst (guard settings f request args)) = [] /\
  snd (guard settings f request args) = served f request args.
Proof.
  intros Hm Hskip Hdebug Htok Hurl Hsig Hbad.
  rewrite (decorator_checked _ _ _ _ _ _ _ Hm Hskip (gather_ok _ _ _ _ _ Htok Hurl Hsig)).
  rewrite Hbad, Hdebug. simpl. auto.
Qed.

(** C6.  A POST request whose signature validates against the configured
    token, the validated URL and the POST fields makes the decorated view call
    the wrapped view exactly once, with the very request and arguments it
    received; this holds whatever the two flags are. *)
Theorem valid_signature_calls_view_once settings f request args tok url signature :
  method request = "POST" ->
  TWILIO_AUTH_TOKEN settings = Some tok ->
  validation_url request = inr url ->
  META request !! "HTTP_X_TWILIO_SIGNATURE" = Some signature ->
  validate (mkValidator tok) url (POST request) signature = true ->
  calls (fst (guard settings f request args)) = [(request, args)] /\
  snd (guard settings f request args) = served f request args.
Proof.
  intros Hm Htok Hurl Hsig Hgood.
  destruct (getattr (TWILIO_SKIP_SIGNATURE_VALIDATION settings) false) eqn:Hskip.
  - rewrite (decorator_skip _ _ _ _ Hm Hskip). auto.
  - rewrite (decorator_checked _ _ _ _ _ _ _ Hm Hskip
               (gather_ok _ _ _ _ _ Htok Hurl Hsig)).
    rewrite Hgood. simpl. auto.
Qed.

(** C7.  When the decorated view has called the wrapped view and that
    returned text, the answer is a response with status 200, content type
    ["application/xml"] and the text as its body. *)
Theorem text_becomes_xml_response settings f request args s :
  calls (fst (guard settings f request args)) <> [] ->
  f request args = Return (VText s) ->
  exists r,
    snd (guard settings f request args) = Return (VResponse r) /\
    status_code r = 200%Z /\
    header "Content-Type" (headers r) = Some "application/xml" /\
    content r = s.
Proof.
  intros Hcall Hf.
  destruct (decorator_rejects_or_runs settings f request args) as [Hno|Hrun];
    [contradiction|].
  rewrite Hrun. unfold run. rewrite Hf. simpl. eauto.
Qed.

(** C8.  When the decorated view has called the wrapped view and that
    returned a response, the answer is that response: same status, same
    headers, same body. *)
Theorem response_passes_through settings f request args r :
  calls (fst (guard settings f request args)) <> [] ->
  f request args = Return (VResponse r) ->
  snd (guard settings f request args) = Return (VResponse r).
Proof.
  intros Hcall Hf.
  destruct (decorator_rejects_or_runs settings f request args) as [Hno|Hrun];
    [contradiction|].
  rewrite Hrun. unfold run. now rewrite Hf.
Qed.

(** C9.  With the skip flag on, a POST request goes straight to the wrapped
    view: the trace is the single call, no record is logged, and the answer is
    what the view returned (coerced) or raised, whatever [META] and the token
    are. *)
Theorem skip_serves_every_POST settings f request args :
  method request = "POST" ->
  getattr (TWILIO_SKIP_SIGNATURE_VALIDATION settings) false = true ->
  fst (guard settings f request args) = [Call request args] /\
  snd (guard settings f request args) = served f request args.
Proof.
  intros Hm Hskip. rewrite (decorator_skip _ _ _ _ Hm Hskip). auto.
Qed.

(** *** Requests behind a proxy *)

(** C4, as amended.  For a POST request that has the forwarded-server key,
    with validation not skipped, the token configured and
    [build_absolute_uri()] having returned: if the forwarded protocol or the
    request URI is missing, the answer is 403 naming the first of them that is
    missing, and the wrapped view is not called; otherwise the URL handed to
    the validator is protocol, ["://"], server and URI put together, the URL
    that [build_absolute_uri()] returned playing no part in the decision. *)
Theorem forwarded_url_is_validated settings f request args tok local host :
  method request = "POST" ->
  getattr (TWILIO_SKIP_SIGNATURE_VALIDATION settings) false = false ->
  TWILIO_AUTH_TOKEN settings = Some tok ->
  build_absolute_uri request = inr local ->
  META request !! "HTTP_X_FORWARDED_SERVER" = Some host ->
  match META request !! "HTTP_X_FORWARDED_PROTO", META request !! "REQUEST_URI" with
  | Some proto, Some uri =>
      let url := proto +:+ "://" +:+ host +:+ uri in
      validation_url request = inr url /\
      match META request !! "HTTP_X_TWILIO_SIGNATURE" with
      | Some signature =>
          gather settings request = inr (mkValidator tok, url, signature) /\
          guard settings f request args =
          if negb (validate (mkValidator tok) url (POST request) signature)
             && negb (getattr (SMS_DEBUG settings) false)
          then
            ([Log (error "Twilio: Invalid url signature %s - %s - %s"
                     [AText url; APost (POST request); AText signature] request)],
             Return (VResponse (HttpResponseForbidden "Invalid signature")))
          else run force_text f request args
      | None =>
          guard settings f request args =
          ([Log (exception "Twilio: Missing META param"
                   (KeyError "HTTP_X_TWILIO_SIGNATURE") request)],
           Return (VResponse (HttpResponseForbidden
                     ("Missing META param: " +:+ repr "HTTP_X_TWILIO_SIGNATURE"))))
      end
  | None, _ =>
      guard settings f request args =
      ([Log (exception "Twilio: Missing META param"
               (KeyError "HTTP_X_FORWARDED_PROTO") request)],
       Return (VResponse (HttpResponseForbidden
                 ("Missing META param: " +:+ repr "HTTP_X_FORWARDED_PROTO"))))
  | Some _, None =>
      guard settings f request args =
      ([Log (exception "Twilio: Missing META param"
               (KeyError "REQUEST_URI") request)],
       Return (VResponse (HttpResponseForbidden
                 ("Missing META param: " +:+ repr "REQUEST_URI"))))
  end.
Proof.
  intros Hm Hskip Htok Hlocal Hsrv.
  pose proof (validation_url_forwarded _ _ _ Hlocal Hsrv) as Hurl.
  pose proof (gather_token _ request _ Htok) as Hg.
  destruct (META request !! "HTTP_X_FORWARDED_PROTO") as [proto|].
  - destruct (META request !! "REQUEST_URI") as [uri|].
    + cbv zeta. split; [exact Hurl|].
      rewrite Hurl in Hg. unfold getitem in Hg.
      destruct (META request !! "HTTP_X_TWILIO_SIGNATURE") as [signature|].
      * split; [exact Hg|]. now apply decorator_checked.
      * now apply decorator_missing.
    + rewrite Hurl in Hg. now apply decorator_missing.
  - rewrite Hurl in Hg. now apply decorator_missing.
Qed.

End Properties.

(** ** Worked requests

    The theorems above at the sample requests, and the requests on which the
    decorator departs from its description. *)

Import Samples.

Lemma invalid_signature_is_forbidden_witness :
  exists r,
    snd (guard production text_view forged no_args) = Return (VResponse r) /\
    status_code r = 403%Z /\
    content r = "Invalid signature" /\
    calls (fst (guard production text_view forged no_args)) = [].
Proof.
  apply (invalid_signature_is_forbidden force_text validate
           production text_view forged no_args
           "secret" local_url "bm90IGEgc2lnbmF0dXJl");
    vm_compute; reflexivity.
Defined.

(** C2 fails as stated, in two ways.  With the skip flag on, a POST request
    without the signature header reaches the wrapped view and is answered with
    200.  And with validation on, when [build_absolute_uri()] raises
    [DisallowedHost] the decorated view raises it: there is no 403, no log
    record and no call of the view. *)
Lemma unsigned_is_served_when_skipping :
  guard skipping text_view unsigned no_args =
  ([Call unsigned no_args],
   Return (VResponse (HttpResponse_ hello "application/xml"))) /\
  ~ (exists r,
       snd (guard skipping text_view unsigned no_args) = Return (VResponse r) /\
       status_code r = 403%Z) /\
  META unsigned_disallowed !! "HTTP_X_TWILIO_SIGNATURE" = None /\
  guard production text_view unsigned_disallowed no_args = ([], Raise disallowed).
Proof.
  split; [vm_compute; reflexivity|].
  split; [|split; vm_compute; reflexivity].
  intros (r & Hr & Hstatus). vm_compute in Hr.
  injection Hr as <-. discriminate Hstatus.
Qed.

Lemma unsigned_is_forbidden_witness :
  exists r,
    snd (guard production text_view unsigned no_args) = Return (VResponse r) /\
    status_code r = 403%Z /\
    content r = "Missing META param: 'HTTP_X_TWILIO_SIGNATURE'" /\
    records (fst (guard production text_view unsigned no_args)) =
      [exception "Twilio: Missing META param"
         (KeyError "HTTP_X_TWILIO_SIGNATURE") unsigned] /\
    calls (fst (guard production text_view unsigned no_args)) = [].
Proof.
  exact (unsigned_is_forbidden force_text validate
           production text_view unsigned no_args
           eq_refl eq_refl eq_refl eq_refl).
Defined.

(** C3 fails as stated: with the debug flag on, a request with a bad signature
    is served, but the trace holds the call of the view and nothing else; no
    record is logged, at WARNING or at any other level. *)
Lemma debug_logs_nothing :
  fst (guard debugging text_view forged no_args) = [Call forged no_args] /\
  ~ (exists rec,
       In (Log rec) (fst (guard debugging text_view forged no_args)) /\
       levelno rec = WARNING).
Proof.
  assert (fst (guard debugging text_view forged no_args) = [Call forged no_args])
    as Htrace by (vm_compute; reflexivity).
  split; [exact Htrace|].
  rewrite Htrace. intros (rec & [Hin|[]] & _). discriminate Hin.
Qed.

Lemma debug_serves_invalid_signature_witness :
  fst (guard debugging text_view forged no_args) = [Call forged no_args] /\
  records (fst (guard debugging text_view forged no_args)) = [] /\
  snd (guard debugging text_view forged no_args) =
  Return (VResponse (HttpResponse_ hello "application/xml")).
Proof.
  apply (debug_serves_invalid_signature force_text validate
           debugging text_view forged no_args
           "secret" local_url "bm90IGEgc2lnbmF0dXJl");
    vm_compute; reflexivity.
Defined.

(** C4 fails as stated, in two ways.  With the skip flag on, a POST request
    that has the forwarded server but not the forwarded protocol is not
    answered with 403; it reaches the wrapped view.  And with validation on,
    such a request for which [build_absolute_uri()] raises [DisallowedHost] is
    not answered at all: the decorated view raises before it looks at the
    forwarded keys. *)
Lemma half_proxied_is_served_when_skipping :
  META half_proxied !! "HTTP_X_FORWARDED_SERVER" = Some "example.com" /\
  META half_proxied !! "HTTP_X_FORWARDED_PROTO" = None /\
  guard skipping text_view half_proxied no_args =
  ([Call half_proxied no_args],
   Return (VResponse (HttpResponse_ hello "application/xml"))) /\
  ~ (exists r,
       snd (guard skipping text_view half_proxied no_args) = Return (VResponse r) /\
       status_code r = 403%Z) /\
  META half_proxied_disallowed !! "HTTP_X_FORWARDED_SERVER" = Some "example.com" /\
  META half_proxied_disallowed !! "HTTP_X_FORWARDED_PROTO" = None /\
  guard production text_view half_proxied_disallowed no_args =
  ([], Raise disallowed).
Proof.
  repeat split; try (vm_compute; reflexivity).
  intros (r & Hr & Hstatus). vm_compute in Hr.
  injection Hr as <-. discriminate Hstatus.
Qed.

(** The request of the spec's proxy test: the server's own URL and the
    forwarded one differ, the signature is the one of the forwarded URL, and
    the request is served. *)
Lemma forwarded_url_is_validated_witness :
  validation_url proxied = inr public_url /\
  gather production proxied =
  inr (mkValidator "secret", public_url, sign "secret" public_url fields) /\
  guard production text_view proxied no_args =
  run force_text text_view proxied no_args.
Proof.
  exact (forwarded_url_is_validated force_text validate
           production text_view proxied no_args "secret" local_url "example.com"
           eq_refl eq_refl eq_refl eq_refl eq_refl).
Defined.

(** C5 at a GET request: the answer is 405 and the view is not called, but
    the Allow header reads ["G, E, T"], the letters of the method that was
    refused, where the claim has the allowed method POST. *)
Theorem GET_is_refused_with_its_own_letters :
  guard production text_view get_request no_args =
  ([Log (error "Twilio: Expected POST request" [] get_request)],
   Return (VResponse
             {| status_code := 405;
                headers := [("Content-Type", "text/html; charset=utf-8");
                            ("Allow", "G, E, T")];
                content := "" |})) /\
  calls (fst (guard production text_view get_request no_args)) = [].
Proof.
  split; vm_compute; reflexivity.
Qed.

Lemma valid_signature_calls_view_once_witness :
  calls (fst (guard production text_view signed no_args)) = [(signed, no_args)] /\
  snd (guard production text_view signed no_args) =
  Return (VResponse (HttpResponse_ hello "application/xml")).
Proof.
  apply (valid_signature_calls_view_once force_text validate
           production text_view signed no_args
           "secret" local_url (sign "secret" local_url fields));
    vm_compute; reflexivity.
Defined.

(** The round trip of the spec: the view returns
    ["<Response><Sms>hi</Sms></Response>"]. *)
Lemma text_becomes_xml_response_witness :
  exists r,
    snd (guard production text_view signed no_args) = Return (VResponse r) /\
    status_code r = 200%Z /\
    header "Content-Type" (headers r) = Some "application/xml" /\
    content r = "<Response><Sms>hi</Sms></Response>".
Proof.
  apply (text_becomes_xml_response force_text validate
           production text_view signed no_args hello).
  - vm_compute. discriminate.
  - reflexivity.
Defined.

Lemma response_passes_through_witness :
  snd (guard production response_view signed no_args) =
  Return (VResponse
            {| status_code := 418;
               headers := [("Content-Type", "text/plain"); ("X-Kind", "teapot")];
               content := "short and stout" |}).
Proof.
  apply (response_passes_through force_text validate
           production response_view signed no_args teapot).
  - vm_compute. discriminate.
  - reflexivity.
Defined.

Lemma skip_serves_every_POST_witness :
  fst (guard skipping text_view unsigned no_args) = [Call unsigned no_args] /\
  snd (guard skipping text_view unsigned no_args) =
  Return (VResponse (HttpResponse_ hello "application/xml")).
Proof.
  apply (skip_serves_every_POST force_text validate
           skipping text_view unsigned no_args);
    reflexivity.
Defined.

Lemma missing_token_is_forbidden_witness :
  exists r,
    snd (guard no_token text_view signed no_args) = Return (VResponse r) /\
    status_code r = 403%Z /\
    content r =
      "Missing META param: 'Settings' object has no attribute 'TWILIO_AUTH_TOKEN'" /\
    calls (fst (guard no_token text_view signed no_args)) = [].
Proof.
  apply (missing_token_is_forbidden force_text validate
           no_token text_view signed no_args);
    reflexivity.
Defined.

(** ** Further properties of the decorator

    What the whole of [decorator] guarantees beyond the single branches: when
    the wrapped view can be reached, what a call leaves in the trace, what the
    decorated view can return or raise, and what its verdict depends on. *)

Module MoreSamples.

(** A view that answers with a TwiML object, one that raises, and one that
    returns [None]. *)
Definition twiml_view : @view string := fun _ _ => Return (VTwiML Samples.hello).

Definition boom : exn := Exception "ValueError" "no such subscriber".

Definition raising_view : @view string := fun _ _ => Raise boom.

Definition none_view : @view string := fun _ _ => Return (VObject "None").

(** One proxied POST as two servers see it.  The proxy passes the client's
    Host header on and adds its own forwarded-host header; a server that
    ignores forwarded hosts builds its URL from the first, a server set up
    to trust them ([USE_X_FORWARDED_HOST]) from the second.  Neither URL is
    the one the provider signed. *)
Definition relayed_META : gmap string string :=
  <[ "HTTP_X_TWILIO_SIGNATURE" :=
       Samples.sign "secret" Samples.public_url Samples.fields ]>
  (<[ "HTTP_HOST" := "127.0.0.1:8000" ]>
  (<[ "HTTP_X_FORWARDED_HOST" := "example.com" ]>
  (<[ "HTTP_X_FORWARDED_SERVER" := "example.com" ]>
  (<[ "HTTP_X_FORWARDED_PROTO" := "https" ]>
  {[ "REQUEST_URI" := "/sms/" ]})))).

Definition relayed : HttpRequest :=
  {| method := "POST";
     build_absolute_uri := inr "http://127.0.0.1:8000/sms/";
     META := relayed_META;
     POST := Samples.fields |}.

Definition relayed_trusting : HttpRequest :=
  {| method := "POST";
     build_absolute_uri := inr "http://example.com/sms/";
     META := relayed_META;
     POST := Samples.fields |}.

End MoreSamples.

Section Verdict.

Context {TwiML : Type}.
Variable force_text : TwiML -> string.
Variable validate : RequestValidator -> string -> QueryDict -> string -> bool.

Abbreviation guard := (twilio_view force_text validate).

(** What a successful [try] body says about the settings and the request. *)
Lemma gather_inr settings request validator url signature :
  gather settings request = inr (validator, url, signature) ->
  TWILIO_AUTH_TOKEN settings = Some (token validator) /\
  validation_url request = inr url /\
  META request !! "HTTP_X_TWILIO_SIGNATURE" = Some signature.
Proof.
  unfold gather, get_TWILIO_AUTH_TOKEN, getitem.
  destruct (TWILIO_AUTH_TOKEN settings) as [tok|]; [|discriminate].
  destruct (validation_url request) as [e|url']; [discriminate|].
  destruct (META request !! "HTTP_X_TWILIO_SIGNATURE") as [sig|]; [|discriminate].
  simpl. intros [= <- <- <-]. auto.
Qed.

(** Of the settings the [try] body reads the token and nothing else. *)
Lemma gather_ext s1 s2 request :
  TWILIO_AUTH_TOKEN s1 = TWILIO_AUTH_TOKEN s2 ->
  gather s1 request = gather s2 request.
Proof.
  intros Htok. unfold gather, get_TWILIO_AUTH_TOKEN. now rewrite <- Htok.
Qed.

(** Of a request with the forwarded server the [try] body reads [META], and
    of [build_absolute_uri()] only whether it returned. *)
Lemma gather_forwarded settings r1 r2 u1 u2 host :
  META r1 !! "HTTP_X_FORWARDED_SERVER" = Some host ->
  META r1 = META r2 ->
  build_absolute_uri r1 = inr u1 ->
  build_absolute_uri r2 = inr u2 ->
  gather settings r1 = gather settings r2.
Proof.
  intros Hsrv Hmeta Hu1 Hu2.
  unfold gather, validation_url, contains.
  rewrite <- Hmeta, Hu1, Hu2, Hsrv. reflexivity.
Qed.

(** An exception of the [try] body that is not caught is one that
    [build_absolute_uri()] raised: the other statements raise [AttributeError]
    and [KeyError] only. *)
Lemma gather_uncaught settings request e :
  gather settings request = inl e ->
  caught e = false ->
  build_absolute_uri request = inl e.
Proof.
  intros Hg Hcaught.
  destruct (gather_raises _ _ _ Hg) as [Htok|e Hraised|k Hk];
    [discriminate Hcaught|exact Hraised|discriminate Hcaught].
Qed.

(** The three ways a call of the decorated view can end: the decorator
    answers on its own, with a response; the wrapped view is run; or an
    exception of [build_absolute_uri()] that the [except] clause does not
    catch goes through, before anything is logged or called. *)
Lemma decorator_answers_runs_or_raises settings f request args :
  (exists tr r, guard settings f request args = (tr, Return (VResponse r))) \/
  guard settings f request args = run force_text f request args \/
  (exists e,
     guard settings f request args = ([], Raise e) /\
     build_absolute_uri request = inl e /\
     caught e = false).
Proof.
  unfold twilio_view, decorator.
  destruct (negb (String.eqb (method request) "POST")); [left; eauto|].
  destruct (negb (getattr (TWILIO_SKIP_SIGNATURE_VALIDATION settings) false));
    [|now right; left].
  destruct (gather settings request) as [e|[[validator url] signature]] eqn:Hg.
  - destruct (caught e) eqn:Hcaught.
    + left. destruct e; [eauto|eauto|discriminate Hcaught].
    + right; right. exists e.
      pose proof (gather_uncaught _ _ _ Hg Hcaught) as Hraised.
      destruct e; [discriminate Hcaught|discriminate Hcaught|auto].
  - destruct (negb (validate validator url (POST request) signature)
              && negb (getattr (SMS_DEBUG settings) false));
      [left; eauto|now right; left].
Qed.

(** X1.  With validation not skipped and the debug flag off, the wrapped view
    is called only for a POST request that carries a signature which the
    validator accepts for the configured token, the validated URL and the
    POST fields. *)
Theorem view_called_only_if_signature_validates settings f request args :
  getattr (TWILIO_SKIP_SIGNATURE_VALIDATION settings) false = false ->
  getattr (SMS_DEBUG settings) false = false ->
  calls (fst (guard settings f request args)) <> [] ->
  method request = "POST" /\
  exists tok url signature,
    TWILIO_AUTH_TOKEN settings = Some tok /\
    validation_url request = inr url /\
    META request !! "HTTP_X_TWILIO_SIGNATURE" = Some signature /\
    validate (mkValidator tok) url (POST request) signature = true.
Proof.
  intros Hskip Hdebug. unfold twilio_view, decorator. rewrite Hskip, Hdebug.
  destruct (String.eqb_spec (method request) "POST") as [Hm|Hm]; simpl;
    [|intros []; reflexivity].
  destruct (gather settings request) as [[]|[[[tok] url] signature]] eqn:Hg;
    simpl; try (intros []; reflexivity).
  destruct (validate {| token := tok |} url (POST request) signature) eqn:Hv;
    simpl; [|intros []; reflexivity].
  intros _. split; [exact Hm|].
  destruct (gather_inr _ _ _ _ _ Hg) as (Htok & Hurl & Hsig).
  exists tok, url, signature. auto.
Qed.


(** X3.  An exception raised by the wrapped view is not caught: the decorated
    view raises the same exception, and logs nothing. *)
Theorem view_exception_propagates settings f request args e :
  calls (fst (guard settings f request args)) <> [] ->
  f request args = Raise e ->
  snd (guard settings f request args) = Raise e /\
  records (fst (guard settings f request args)) = [].
Proof.
  intros Hcall Hf.
  destruct (decorator_rejects_or_runs force_text validate settings f request args)
    as [Hno|Hrun]; [contradiction|].
  rewrite Hrun. unfold run. rewrite Hf. auto.
Qed.


(** X5.  When the wrapped view was called and returned a TwiML object, the
    answer is a response with status 200, content type ["application/xml"]
    and the object's text as its body. *)
Theorem twiml_becomes_xml_response settings f request args t :
  calls (fst (guard settings f request args)) <> [] ->
  f request args = Return (VTwiML t) ->
  exists r,
    snd (guard settings f request args) = Return (VResponse r) /\
    status_code r = 200%Z /\
    header "Content-Type" (headers r) = Some "application/xml" /\
    content r = force_text t.
Proof.
  intros Hcall Hf.
  destruct (decorator_rejects_or_runs force_text validate settings f request args)
    as [Hno|Hrun]; [contradiction|].
  rewrite Hrun. unfold run. rewrite Hf. simpl. eauto.
Qed.

(** X6.  The decorated view never hands text or a TwiML object back to the
    framework: what it returns is a response, or the object other than text
    and TwiML that the wrapped view returned. *)
Theorem answer_is_never_text_or_twiml settings f request args v :
  snd (guard settings f request args) = Return v ->
  (exists r, v = VResponse r) \/
  (exists o, v = VObject o /\ f request args = Return (VObject o)).
Proof.
  destruct (decorator_answers_runs_or_raises settings f request args)
    as [(tr & r & ->) | [-> | (e & -> & _)]].
  - simpl. intros [= <-]. eauto.
  - unfold run. simpl. destruct (f request args) as [[| | |]|]; simpl;
      intros [= <-]; eauto.
  - discriminate.
Qed.

(** X7.  Every request whose method is not POST is answered with 405 without
    the wrapped view being called, whatever the settings are; and whatever the
    refused method is, the Allow header of that answer is not ["POST"]. *)
Theorem refused_method_is_never_told_POST settings f request args :
  method request <> "POST" ->
  exists r,
    snd (guard settings f request args) = Return (VResponse r) /\
    status_code r = 405%Z /\
    header "Allow" (headers r) <> Some "POST" /\
    calls (fst (guard settings f request args)) = [].
Proof.
  intros Hm.
  rewrite (decorator_not_POST force_text validate _ _ _ _ Hm). simpl.
  eexists. repeat split. simpl. intros [= Hjoin].
  now apply (join_iter_not_POST (method request)).
Qed.

(** X8.  The debug flag matters only for a signature that is present and does
    not validate: two settings that differ in nothing but that flag give the
    same trace and the same answer whenever the [try] body fails or the
    signature it found validates. *)
Theorem debug_flag_only_rescues_bad_signatures s1 s2 f request args :
  getattr (TWILIO_SKIP_SIGNATURE_VALIDATION s1) false =
  getattr (TWILIO_SKIP_SIGNATURE_VALIDATION s2) false ->
  TWILIO_AUTH_TOKEN s1 = TWILIO_AUTH_TOKEN s2 ->
  (forall validator url signature,
     gather s1 request = inr (validator, url, signature) ->
     validate validator url (POST request) signature = true) ->
  guard s1 f request args = guard s2 f request args.
Proof.
  intros Hskip Htok Hvalid. unfold twilio_view, decorator.
  rewrite <- Hskip, <- (gather_ext s1 s2 request Htok).
  destruct (negb (String.eqb (method request) "POST")); [reflexivity|].
  destruct (negb (getattr (TWILIO_SKIP_SIGNATURE_VALIDATION s1) false));
    [|reflexivity].
  destruct (gather s1 request) as [e|[[validator url] signature]];
    [reflexivity|].
  now rewrite (Hvalid _ _ _ eq_refl).
Qed.

(** X9.  Behind a proxy, once [build_absolute_uri()] has returned, the URL
    it returned plays no part.  Take one request as two servers see it: the
    same method, [META] and POST fields, [META] having the forwarded server,
    and [build_absolute_uri()] returning on both, with whatever URL each
    server's configuration makes of the request.  The [try] body gathers the
    same validator, URL and signature on both, the verdict is the same, and so
    is the answer when the request is refused. *)
Theorem forwarded_request_ignores_returned_url settings f r1 r2 args host u1 u2 :
  META r1 !! "HTTP_X_FORWARDED_SERVER" = Some host ->
  method r1 = method r2 ->
  META r1 = META r2 ->
  POST r1 = POST r2 ->
  build_absolute_uri r1 = inr u1 ->
  build_absolute_uri r2 = inr u2 ->
  gather settings r1 = gather settings r2 /\
  (calls (fst (guard settings f r1 args)) = [] <->
   calls (fst (guard settings f r2 args)) = []) /\
  (calls (fst (guard settings f r1 args)) = [] ->
   snd (guard settings f r1 args) = snd (guard settings f r2 args)).
Proof.
  intros Hsrv Hm Hmeta Hpost Hu1 Hu2.
  pose proof (gather_forwarded settings r1 r2 u1 u2 host Hsrv Hmeta Hu1 Hu2) as Hg.
  split; [exact Hg|].
  unfold twilio_view, decorator. rewrite <- Hm, <- Hpost, <- Hg.
  destruct (negb (String.eqb (method r1) "POST")); [simpl; tauto|].
  destruct (negb (getattr (TWILIO_SKIP_SIGNATURE_VALIDATION settings) false)).
  - destruct (gather settings r1) as [[]|[[validator url] signature]];
      try (simpl; tauto).
    destruct (negb (validate validator url (POST r1) signature)
              && negb (getattr (SMS_DEBUG settings) false)); simpl; [tauto|].
    split; [split|]; discriminate.
  - simpl. split; [split|]; discriminate.
Qed.

(** X10.  The verdict is reached before the wrapped view is looked at: a
    request that is refused is refused in the same way, with the same trace
    and answer, whatever view is wrapped. *)
Theorem refusal_does_not_depend_on_view settings f g request args :
  calls (fst (guard settings f request args)) = [] ->
  guard settings g request args = guard settings f request args.
Proof.
  unfold twilio_view, decorator.
  destruct (negb (String.eqb (method request) "POST")); [reflexivity|].
  destruct (negb (getattr (TWILIO_SKIP_SIGNATURE_VALIDATION settings) false));
    [|discriminate].
  destruct (gather settings request) as [[]|[[validator url] signature]];
    try reflexivity.
  destruct (negb (validate validator url (POST request) signature)
            && negb (getattr (SMS_DEBUG settings) false));
    [reflexivity|discriminate].
Qed.

End Verdict.

(** ** The further properties at the sample requests *)

Import MoreSamples.

Lemma view_called_only_if_signature_validates_witness :
  method signed = "POST" /\
  exists tok url signature,
    TWILIO_AUTH_TOKEN production = Some tok /\
    validation_url signed = inr url /\
    META signed !! "HTTP_X_TWILIO_SIGNATURE" = Some signature /\
    Samples.validate (mkValidator tok) url (POST signed) signature = true.
Proof.
  apply (view_called_only_if_signature_validates Samples.force_text
           Samples.validate production text_view signed no_args).
  - reflexivity.
  - reflexivity.
  - vm_compute. discriminate.
Defined.

Lemma view_exception_propagates_witness :
  snd (Samples.guard production raising_view signed no_args) = Raise boom /\
  records (fst (Samples.guard production raising_view signed no_args)) = [].
Proof.
  apply (view_exception_propagates Samples.force_text Samples.validate
           production raising_view signed no_args boom).
  - vm_compute. discriminate.
  - reflexivity.
Defined.


Lemma twiml_becomes_xml_response_witness :
  exists r,
    snd (Samples.guard production twiml_view signed no_args) =
    Return (VResponse r) /\
    status_code r = 200%Z /\
    header "Content-Type" (headers r) = Some "application/xml" /\
    content r = Samples.force_text hello.
Proof.
  apply (twiml_becomes_xml_response Samples.force_text Samples.validate
           production twiml_view signed no_args hello).
  - vm_compute. discriminate.
  - reflexivity.
Defined.

Lemma answer_is_never_text_or_twiml_witness :
  (exists r, @VObject string "None" = VResponse r) \/
  (exists o, @VObject string "None" = VObject o /\
             none_view signed no_args = Return (VObject o)).
Proof.
  apply (answer_is_never_text_or_twiml Samples.force_text Samples.validate
           production none_view signed no_args (VObject "None")).
  vm_compute. reflexivity.
Defined.

Lemma refused_method_is_never_told_POST_witness :
  exists r,
    snd (Samples.guard skipping text_view get_request no_args) =
    Return (VResponse r) /\
    status_code r = 405%Z /\
    header "Allow" (headers r) <> Some "POST" /\
    calls (fst (Samples.guard skipping text_view get_request no_args)) = [].
Proof.
  apply (refused_method_is_never_told_POST Samples.force_text Samples.validate
           skipping text_view get_request no_args).
  vm_compute. discriminate.
Defined.

Lemma debug_flag_only_rescues_bad_signatures_witness :
  Samples.guard production text_view signed no_args =
  Samples.guard debugging text_view signed no_args.
Proof.
  apply (debug_flag_only_rescues_bad_signatures Samples.force_text
           Samples.validate production debugging text_view signed no_args).
  - reflexivity.
  - reflexivity.
  - intros validator url signature Hg. vm_compute in Hg.
    injection Hg as <- <- <-. vm_compute. reflexivity.
Defined.

Lemma forwarded_request_ignores_returned_url_witness :
  gather production relayed = gather production relayed_trusting /\
  (calls (fst (Samples.guard production text_view relayed no_args)) = [] <->
   calls (fst (Samples.guard production text_view relayed_trusting no_args)) = []) /\
  (calls (fst (Samples.guard production text_view relayed no_args)) = [] ->
   snd (Samples.guard production text_view relayed no_args) =
   snd (Samples.guard production text_view relayed_trusting no_args)).
Proof.
  apply (forwarded_request_ignores_returned_url Samples.force_text
           Samples.validate production text_view relayed relayed_trusting
           no_args "example.com"
           "http://127.0.0.1:8000/sms/" "http://example.com/sms/");
    vm_compute; reflexivity.
Defined.

Lemma refusal_does_not_depend_on_view_witness :
  Samples.guard production raising_view forged no_args =
  Samples.guard production text_view forged no_args.
Proof.
  apply (refusal_does_not_depend_on_view Samples.force_text Samples.validate
           production text_view raising_view forged no_args).
  vm_compute. reflexivity.
Defined.
